(** * NimSchools assistant: the rule-based answerer and the PIN-gated results lookup

    A shallow embedding of [answer_question] and of the [/results] handler
    [results_lookup] of [app.py], and the properties of the two that the
    design document states; then of the [/assistant] and [/vapi/make-call]
    handlers, with further properties read off the code.

    Python strings are modelled as Rocq strings, that is as sequences of
    8-bit characters: the UTF-8 encoding of the text.  [Py.lower] and
    [Py.strip] are [str.lower] and [str.strip] on ASCII text; characters
    above 127 are left alone by both.  Every keyword, PIN, subject name and
    alias of the program is ASCII.  Module [Runtime] has the two components
    with [str.lower] and [str.strip] as parameters; what is proved of them
    holds whatever the two methods do to text that is not ASCII. *)

From Stdlib Require Import ZArith Bool Ascii String List.
From stdpp Require Import gmap strings list fin_maps.


(* ===================================================================== *)
(** ** String primitives of the Python runtime *)
(* ===================================================================== *)

Module Py.

(** [word in q] on strings: [word] occurs in [q] as a contiguous block. *)
Fixpoint str_in (word q : string) : bool :=
  String.prefix word q ||
  match q with
  | EmptyString => false
  | String _ rest => str_in word rest
  end.

Definition is_upper (c : ascii) : bool :=
  let n := nat_of_ascii c in (65 <=? n)%nat && (n <=? 90)%nat.

Definition lower_char (c : ascii) : ascii :=
  if is_upper c then ascii_of_nat (nat_of_ascii c + 32) else c.

(** [s.lower()] *)
Fixpoint lower (s : string) : string :=
  match s with
  | EmptyString => EmptyString
  | String c rest => String (lower_char c) (lower rest)
  end.

(** [c.isspace()] on the ASCII range: TAB, LF, VT, FF, CR, the four
    separators FS, GS, RS, US and the space. *)
Definition is_space (c : ascii) : bool :=
  let n := nat_of_ascii c in
  ((9 <=? n)%nat && (n <=? 13)%nat) || ((28 <=? n)%nat && (n <=? 32)%nat).

Fixpoint lstrip (s : string) : string :=
  match s with
  | EmptyString => EmptyString
  | String c rest => if is_space c then lstrip rest else s
  end.

Fixpoint rstrip (s : string) : string :=
  match s with
  | EmptyString => EmptyString
  | String c rest =>
      match rstrip rest with
      | EmptyString => if is_space c then EmptyString else String c EmptyString
      | rest' => String c rest'
      end
  end.

(** [s.strip()] *)
Definition strip (s : string) : string := rstrip (lstrip s).

(** [not s] for a string: only the empty string is falsy. *)
Definition falsy (s : string) : bool :=
  match s with EmptyString => true | _ => false end.

(** [x or ""] where [x] is the value of [data.get(key)]: a missing key and
    a JSON null both give [None]. *)
Definition or_empty (x : option string) : string :=
  match x with
  | Some s => s
  | None => EmptyString
  end.

(** Not called by the program; it serves to say what a word of a question
    is.  The space-separated words of [s], empty ones dropped, as
    [s.split()] gives them for text whose only white space is the space
    character. *)
Fixpoint words_from (cur : string) (s : string) : list string :=
  match s with
  | EmptyString => if falsy cur then [] else [cur]
  | String c rest =>
      if Ascii.eqb c " "%char
      then (if falsy cur then words_from EmptyString rest
            else cur :: words_from EmptyString rest)
      else words_from (cur +:+ String c EmptyString) rest
  end.

Definition words (s : string) : list string := words_from EmptyString s.

End Py.

Import Py.

Definition nl : string := String (ascii_of_nat 10) EmptyString.

(* ===================================================================== *)
(** ** The canned answers of [answer_question] *)
(* ===================================================================== *)

Definition ANSWER_LOCATION : string :=
  "New Ideal Model Schools (NIMS) is located at No. 12 Old Pantisawa Road, " +:+
  "Jalingo, Taraba State, Nigeria.".

Definition ANSWER_CONTACT : string :=
  "You can contact New Ideal Model Schools at +234 803 426 1645 or " +:+
  "by email at info@nimschools.org. The school is at No. 12 Old Pantisawa " +:+
  "Road, Jalingo, Taraba State.".

Definition ANSWER_ABOUT : string :=
  "New Ideal Model Schools (NIMS) in Jalingo, Taraba State, focuses on " +:+
  "developing lifelong learning through quality education. The school " +:+
  "provides a vibrant learning environment with modern classrooms, " +:+
  "state-of-the-art facilities, and engaged students, and encourages " +:+
  "holistic development through academics and extracurricular activities.".

Definition ANSWER_ADMISSIONS : string :=
  "Admissions for the 2025 academic year are open. The website links to " +:+
  "an admissions page where you can apply. If you need help with the " +:+
  "process, you can also call +234 803 426 1645 or email info@nimschools.org " +:+
  "for guidance on requirements, fees, and timelines.".

Definition ANSWER_EYFS : string :=
  "Early Years Foundation Stage (EYFS) at NIMS includes classes like " +:+
  "Playgroup Lily, Pre-Nursery Jasmine, Pre-Nursery Tulip, Nursery Daisy, " +:+
  "Nursery Ivy, and Reception classes such as Sage and Rose.".

Definition ANSWER_KS1 : string :=
  "Key Stage 1 at NIMS includes Year 1 Cheetah, Year 2 Dolphin, Year 2 Orca, " +:+
  "and Year 3 Bear classes.".

Definition ANSWER_KS2 : string :=
  "Key Stage 2 at NIMS includes Year 4 Blue Jays, Year 5 Barn Owls, and " +:+
  "Year 6 Zebra.".

Definition ANSWER_KS3 : string :=
  "Key Stage 3 at NIMS includes Year 7 Amber, Year 8 Ruby, and Year 9 Beryl.".

Definition ANSWER_KS4 : string :=
  "Key Stage 4 at NIMS includes Year 10 Jasper, Year 11 Onyx, and Year 12 Topaz.".

Definition ANSWER_CLASSES : string :=
  "NIMS runs from Early Years Foundation Stage (EYFS) through Key Stages 1–4. " +:+
  "EYFS covers playgroup and nursery up to reception; Key Stage 1 covers Years 1–3; " +:+
  "Key Stage 2 covers Years 4–6; Key Stage 3 covers Years 7–9; and Key Stage 4 " +:+
  "covers Years 10–12.".

Definition ANSWER_EXTRACURRICULAR : string :=
  "NIMS encourages holistic development through extracurricular activities, " +:+
  "including an art gallery, architectural design projects, and other clubs " +:+
  "and activities that support students' creativity and talents.".

Definition ANSWER_PRINCIPAL : string :=
  "The Principal and Head of Schools at NIMS is Mr. Adebanjo Oluwafemi. " +:+
  "He has extensive experience in education and school leadership across " +:+
  "international schools in Nigeria.".

Definition ANSWER_VP_ACADEMIC : string :=
  "The Vice Principal Academic at NIMS is Mrs. Ifeoma Victoria Onwuka. " +:+
  "She supports curriculum development and teacher effectiveness to ensure " +:+
  "strong academic outcomes.".

Definition ANSWER_VP_SPECIAL_DUTIES : string :=
  "The Vice Principal Special Duties at NIMS is Mr. David Kennedy. He helps " +:+
  "oversee daily operations and resources to maintain a safe and organized " +:+
  "learning environment.".

Definition ANSWER_ART_TEACHER : string :=
  "The Art Teacher at NIMS is Mr. Baajon Cyracus Michael. He develops and " +:+
  "delivers engaging art lessons, helping students explore drawing, painting, " +:+
  "sculpture, and art appreciation.".

Definition ANSWER_ICT : string :=
  "Samuel Oguche serves as ICT staff and E-Librarian at NIMS, supporting " +:+
  "students' access to digital learning resources.".

Definition ANSWER_ALUMNI : string :=
  "Alumni of NIMS describe it as the best school and say it has positively " +:+
  "impacted them and their generation. They highlight how studying at NIMS " +:+
  "helped them understand what education is really about and made them more " +:+
  "brilliant and competitive.".

Definition ANSWER_FEES : string :=
  "Details like fees, transport, and boarding are not clearly listed in the " +:+
  "public content I can see. Please contact the school directly at " +:+
  "+234 803 426 1645 or info@nimschools.org for the latest information.".

Definition ANSWER_FALLBACK : string :=
  "I'm a NimSchools helper bot with information taken from the public website. " +:+
  "I couldn't find an exact answer to that question. You can:" +:+ nl +:+
  "- Ask about academics (EYFS, Key Stages 1–4, extracurricular activities)." +:+ nl +:+
  "- Ask about the principal, vice principals, or staff." +:+ nl +:+
  "- Ask for contact details or the school location." +:+ nl +:+ nl +:+
  "For anything else (like fees or detailed admission requirements), it's best to " +:+
  "call +234 803 426 1645 or email info@nimschools.org.".

(* ===================================================================== *)
(** ** [answer_question] *)
(* ===================================================================== *)

(** [any(word in q for word in kws)] *)
Definition any_in (kws : list string) (q : string) : bool :=
  existsb (fun word => str_in word q) kws.

Definition answer_question (question : string) : string :=
  let q := lower question in
  (* Location / contact *)
  if any_in ["address"; "location"; "where are you"; "where is the school"] q
  then ANSWER_LOCATION
  else if any_in ["contact"; "phone"; "call"; "email"] q
  then ANSWER_CONTACT
  (* General about the school *)
  else if any_in ["about"; "tell me about"; "what is nim"; "what is nims";
                  "new ideal model schools"] q
  then ANSWER_ABOUT
  (* Admissions *)
  else if str_in "admission" q || str_in "enrol" q || str_in "enroll" q
          || str_in "apply" q
  then ANSWER_ADMISSIONS
  (* Academics: EYFS and Key Stages *)
  else if str_in "early years" q || str_in "eyfs" q
  then ANSWER_EYFS
  else if str_in "key stage 1" q || str_in "ks1" q || str_in "key stage one" q
  then ANSWER_KS1
  else if str_in "key stage 2" q || str_in "ks2" q || str_in "key stage two" q
  then ANSWER_KS2
  else if str_in "key stage 3" q || str_in "ks3" q || str_in "key stage three" q
  then ANSWER_KS3
  else if str_in "key stage 4" q || str_in "ks4" q || str_in "key stage four" q
  then ANSWER_KS4
  else if str_in "class" q || str_in "classes" q || str_in "grades" q
          || str_in "sections" q
  then ANSWER_CLASSES
  (* Extracurricular activities *)
  else if str_in "extracurricular" q || str_in "extra-curricular" q
          || str_in "activities" q || str_in "club" q || str_in "sport" q
  then ANSWER_EXTRACURRICULAR
  (* Staff & leadership *)
  else if str_in "principal" q || str_in "head of school" q
          || str_in "head of schools" q
  then ANSWER_PRINCIPAL
  else if str_in "vice principal academic" q || str_in "vp academic" q
          || str_in "ifeoma" q
  then ANSWER_VP_ACADEMIC
  else if str_in "vice principal" q || str_in "special duties" q
          || str_in "david kennedy" q
  then ANSWER_VP_SPECIAL_DUTIES
  else if str_in "art teacher" q || str_in "baajon" q || str_in "cyracus" q
  then ANSWER_ART_TEACHER
  else if str_in "e-librarian" q || str_in "ict staff" q
          || str_in "samuel oguche" q
  then ANSWER_ICT
  (* Testimonials / alumni *)
  else if str_in "alumni" q || str_in "testimonials" q
          || str_in "what do students say" q
  then ANSWER_ALUMNI
  (* Fees, transport, boarding etc. *)
  else if any_in ["fees"; "school fees"; "tuition"; "scholarship"; "bus";
                  "transport"; "boarding"; "hostel"] q
  then ANSWER_FEES
  (* Fallback *)
  else ANSWER_FALLBACK.

(** The same cascade read as data: the keyword groups in the order in which
    the function tests them, each with the answer it returns. *)
Definition RULES : list (list string * string) :=
  [ (["address"; "location"; "where are you"; "where is the school"], ANSWER_LOCATION);
    (["contact"; "phone"; "call"; "email"], ANSWER_CONTACT);
    (["about"; "tell me about"; "what is nim"; "what is nims";
      "new ideal model schools"], ANSWER_ABOUT);
    (["admission"; "enrol"; "enroll"; "apply"], ANSWER_ADMISSIONS);
    (["early years"; "eyfs"], ANSWER_EYFS);
    (["key stage 1"; "ks1"; "key stage one"], ANSWER_KS1);
    (["key stage 2"; "ks2"; "key stage two"], ANSWER_KS2);
    (["key stage 3"; "ks3"; "key stage three"], ANSWER_KS3);
    (["key stage 4"; "ks4"; "key stage four"], ANSWER_KS4);
    (["class"; "classes"; "grades"; "sections"], ANSWER_CLASSES);
    (["extracurricular"; "extra-curricular"; "activities"; "club"; "sport"],
     ANSWER_EXTRACURRICULAR);
    (["principal"; "head of school"; "head of schools"], ANSWER_PRINCIPAL);
    (["vice principal academic"; "vp academic"; "ifeoma"], ANSWER_VP_ACADEMIC);
    (["vice principal"; "special duties"; "david kennedy"], ANSWER_VP_SPECIAL_DUTIES);
    (["art teacher"; "baajon"; "cyracus"], ANSWER_ART_TEACHER);
    (["e-librarian"; "ict staff"; "samuel oguche"], ANSWER_ICT);
    (["alumni"; "testimonials"; "what do students say"], ANSWER_ALUMNI);
    (["fees"; "school fees"; "tuition"; "scholarship"; "bus"; "transport";
      "boarding"; "hostel"], ANSWER_FEES) ].

(** First match wins; the fallback when no group matches. *)
Fixpoint dispatch (rules : list (list string * string)) (q : string) : string :=
  match rules with
  | [] => ANSWER_FALLBACK
  | (kws, answer) :: rest => if any_in kws q then answer else dispatch rest q
  end.

(** Every keyword the function looks for. *)
Definition KEYWORDS : list string := concat (map fst RULES).

(* ===================================================================== *)
(** ** The record table and the [/results] handler *)
(* ===================================================================== *)

Record SubjectResult := { score : Z; grade : string }.

Record StudentRecord := {
  student_name : string;
  class : string;
  session : string;
  term : string;
  subjects : gmap string SubjectResult;
}.

(** The module-level dictionary [RESULTS_BY_PIN] as the program text
    builds it when the module is imported. *)
Definition RESULTS_BY_PIN : gmap string StudentRecord :=
  {[ "1234" :=
       {| student_name := "Aisha Ibrahim";
          class := "Year 6 Zebra";
          session := "2024/2025";
          term := "Second Term";
          subjects :=
            {[ "mathematics" := {| score := 88; grade := "A" |};
               "english" := {| score := 82; grade := "A-" |};
               "science" := {| score := 79; grade := "B+" |};
               "social studies" := {| score := 85; grade := "A" |} ]} |};
     "5678" :=
       {| student_name := "David Okafor";
          class := "Year 9 Beryl";
          session := "2024/2025";
          term := "Second Term";
          subjects :=
            {[ "mathematics" := {| score := 72; grade := "B" |};
               "english" := {| score := 90; grade := "A+" |};
               "physics" := {| score := 76; grade := "B+" |};
               "chemistry" := {| score := 69; grade := "C+" |} ]} |} ]}.

(** The mutable state that outlives a call: the module globals.  The
    keyword lists of [answer_question] and the alias dictionary of
    [results_lookup] are literals evaluated afresh inside each call, so
    they are not part of it. *)
Record globals := { G_RESULTS_BY_PIN : gmap string StudentRecord }.

Definition BOOT : globals := {| G_RESULTS_BY_PIN := RESULTS_BY_PIN |}.

(** Code that runs against the globals: it receives them and hands them
    back together with its value. *)
Definition State (A : Type) : Type := globals -> A * globals.

#[global] Instance State_ret : MRet State := fun A a g => (a, g).

#[global] Instance State_bind : MBind State :=
  fun A B k m g => let (a, g') := m g in k a g'.

Definition ret {A} (a : A) : State A := mret a.

(** [RESULTS_BY_PIN.get(pin)]: a read of the global dictionary. *)
Definition RESULTS_BY_PIN_get (pin : string) : State (option StudentRecord) :=
  fun g => (G_RESULTS_BY_PIN g !! pin, g).

(** The value of a call made right after start-up. *)
Definition call {A} (m : State A) : A := (m BOOT).1.

(** The parsed JSON body, as far as the handler reads it: the values of
    [data.get("pin")] and [data.get("subject")], [None] for a missing key
    or a null.  The fields are strings, as in the documented request. *)
Record request := { pin : option string; subject : option string }.

(** What the handler passes to [jsonify]. *)
Inductive payload :=
| Error (error : string)
| AllSubjects (student_name class session term : string)
              (subjects : gmap string SubjectResult)
| SingleSubject (student_name class session term : string)
                (subject : string) (score : Z) (grade : string).

(** Payload and HTTP status; a bare [jsonify(...)] is status 200. *)
Definition response : Type := payload * Z.

Definition MISSING_PIN : string := "Missing 'pin' in request body.".
Definition INVALID_PIN : string := "Invalid PIN. Please check and try again.".

(** [f"No recorded result for subject '{subject_raw}' for this student."] *)
Definition no_result_for (subject_raw : string) : string :=
  "No recorded result for subject '" +:+ subject_raw +:+ "' for this student.".

(** The local [alias_map] of [results_lookup]. *)
Definition alias_map : gmap string string :=
  {[ "math" := "mathematics";
     "maths" := "mathematics";
     "english language" := "english" ]}.

Definition results_lookup (data : request) : State response :=
  let pin := strip (or_empty (pin data)) in
  let subject_raw := lower (strip (or_empty (subject data))) in
  if falsy pin then ret (Error MISSING_PIN, 400%Z)
  else
    record ← RESULTS_BY_PIN_get pin;
    match record with
    | None =>
        (* Do not reveal whether the PIN is close/valid; just say it's invalid. *)
        ret (Error INVALID_PIN, 403%Z)
    | Some record =>
        let subjects := subjects record in
        if falsy subject_raw then
          (* Return all subjects for this PIN *)
          ret (AllSubjects (student_name record) (class record)
                           (session record) (term record) subjects, 200%Z)
        else
          (* Normalise some common subject aliases *)
          let subject_key := default subject_raw (alias_map !! subject_raw) in
          match subjects !! subject_key with
          | None => ret (Error (no_result_for subject_raw), 404%Z)
          | Some subject_result =>
              ret (SingleSubject (student_name record) (class record)
                                 (session record) (term record) subject_key
                                 (score subject_result) (grade subject_result),
                   200%Z)
          end
    end.

(** A client's calls to the two components, and a run of several calls one
    after the other on the same process. *)
Inductive invocation :=
| Ask (question : string)
| Lookup (data : request).

Inductive outcome :=
| Answered (answer : string)
| Responded (r : response).

Definition perform (c : invocation) : State outcome :=
  match c with
  | Ask question => ret (Answered (answer_question question))
  | Lookup data => r ← results_lookup data; ret (Responded r)
  end.

Fixpoint perform_all (cs : list invocation) : State (list outcome) :=
  match cs with
  | [] => ret []
  | c :: rest =>
      o ← perform c;
      os ← perform_all rest;
      ret (o :: os)
  end.

(* ===================================================================== *)
(** ** The [/assistant] handler *)
(* ===================================================================== *)

(** The parsed JSON body of [/assistant], as far as the handler reads it:
    the values of [data.get("question")] and [data.get("query")]. *)
Record assistant_request := { question : option string; query : option string }.

(** [x or y] on the values of two [data.get]: [x] when it is truthy (a
    non-empty string), else [y]. *)
Definition or_else (x y : option string) : option string :=
  match x with
  | Some s => if falsy s then y else x
  | None => y
  end.

(** What [assistant] passes to [jsonify]: [{"answer": None, "error": ...}]
    or [{"answer": ...}]. *)
Inductive assistant_payload :=
| NoAnswer (error : string)
| AnswerIs (answer : string).

Definition MISSING_QUESTION : string := "Missing 'question' in request body.".

Definition assistant (data : assistant_request) : assistant_payload * Z :=
  let question := strip (or_empty (or_else (question data) (query data))) in
  if falsy question then (NoAnswer MISSING_QUESTION, 400%Z)
  else
    let answer := answer_question question in
    (AnswerIs answer, 200%Z).

(* ===================================================================== *)
(** ** The [/vapi/make-call] handler *)
(* ===================================================================== *)











(* ===================================================================== *)
(** ** Vocabulary for the further properties *)
(* ===================================================================== *)

(** The first character of [w] exists and is no white space. *)
Definition starts_nonspace (w : string) : bool :=
  match w with
  | EmptyString => false
  | String c _ => negb (is_space c)
  end.

(** The last character of [w] exists and is no white space. *)
Fixpoint ends_nonspace (w : string) : bool :=
  match w with
  | EmptyString => false
  | String c EmptyString => negb (is_space c)
  | String _ rest => ends_nonspace rest
  end.

Definition solid (w : string) : bool := starts_nonspace w && ends_nonspace w.

(** [s] is empty or starts with a character that is no white space. *)
Definition trimmed_left (s : string) : Prop :=
  match s with
  | EmptyString => True
  | String c _ => is_space c = false
  end.

(** Keywords of the cascade that contain another keyword tested in the
    same group or in an earlier one. *)
Definition REDUNDANT : list string :=
  ["tell me about"; "what is nims"; "enroll"; "classes"; "head of schools";
   "vice principal academic"; "vice principal"; "school fees"; "transport"].

(** The keywords of [rules] that contain another keyword of their own
    group or of a group in [seen], the keywords tested before. *)
Fixpoint redundant_in (seen : list string) (rules : list (list string * string))
  : list string :=
  match rules with
  | [] => []
  | (kws, _) :: rest =>
      List.filter
        (fun w => existsb (fun part => negb (String.eqb part w) && str_in part w)
                          (seen ++ kws))
        kws
      ++ redundant_in (seen ++ kws) rest
  end.

(** Every character of [s] is below 128.  On such text [lower] and [strip]
    are Python's [str.lower] and [str.strip]. *)
Fixpoint is_ascii (s : string) : bool :=
  match s with
  | EmptyString => true
  | String c rest => (nat_of_ascii c <? 128)%nat && is_ascii rest
  end.

(** A rule list without the keywords of [REDUNDANT]. *)
Definition prune (rules : list (list string * string)) : list (list string * string) :=
  map (fun rule =>
         (List.filter (fun w => negb (existsb (String.eqb w) REDUNDANT)) rule.1,
          rule.2))
      rules.

(* ===================================================================== *)
(** ** The two components on any Python runtime *)
(* ===================================================================== *)

(** [str.lower] and [str.strip] follow the Unicode tables of the Python
    runtime, which are no part of the program: [Py.lower] and [Py.strip]
    give what they do on ASCII text only.  Here the two components are
    written once more with the two methods as parameters, [lower] for
    [str.lower] and [strip] for [str.strip], on strings in their UTF-8
    encoding.  A keyword is ASCII, so it occurs in a text exactly when its
    bytes occur in the encoded text. *)
Module Runtime.

Section Methods.

Variable lower : string -> string.
Variable strip : string -> string.

Definition answer_question (question : string) : string :=
  let q := lower question in
  (* Location / contact *)
  if any_in ["address"; "location"; "where are you"; "where is the school"] q
  then ANSWER_LOCATION
  else if any_in ["contact"; "phone"; "call"; "email"] q
  then ANSWER_CONTACT
  (* General about the school *)
  else if any_in ["about"; "tell me about"; "what is nim"; "what is nims";
                  "new ideal model schools"] q
  then ANSWER_ABOUT
  (* Admissions *)
  else if str_in "admission" q || str_in "enrol" q || str_in "enroll" q
          || str_in "apply" q
  then ANSWER_ADMISSIONS
  (* Academics: EYFS and Key Stages *)
  else if str_in "early years" q || str_in "eyfs" q
  then ANSWER_EYFS
  else if str_in "key stage 1" q || str_in "ks1" q || str_in "key stage one" q
  then ANSWER_KS1
  else if str_in "key stage 2" q || str_in "ks2" q || str_in "key stage two" q
  then ANSWER_KS2
  else if str_in "key stage 3" q || str_in "ks3" q || str_in "key stage three" q
  then ANSWER_KS3
  else if str_in "key stage 4" q || str_in "ks4" q || str_in "key stage four" q
  then ANSWER_KS4
  else if str_in "class" q || str_in "classes" q || str_in "grades" q
          || str_in "sections" q
  then ANSWER_CLASSES
  (* Extracurricular activities *)
  else if str_in "extracurricular" q || str_in "extra-curricular" q
          || str_in "activities" q || str_in "club" q || str_in "sport" q
  then ANSWER_EXTRACURRICULAR
  (* Staff & leadership *)
  else if str_in "principal" q || str_in "head of school" q
          || str_in "head of schools" q
  then ANSWER_PRINCIPAL
  else if str_in "vice principal academic" q || str_in "vp academic" q
          || str_in "ifeoma" q
  then ANSWER_VP_ACADEMIC
  else if str_in "vice principal" q || str_in "special duties" q
          || str_in "david kennedy" q
  then ANSWER_VP_SPECIAL_DUTIES
  else if str_in "art teacher" q || str_in "baajon" q || str_in "cyracus" q
  then ANSWER_ART_TEACHER
  else if str_in "e-librarian" q || str_in "ict staff" q
          || str_in "samuel oguche" q
  then ANSWER_ICT
  (* Testimonials / alumni *)
  else if str_in "alumni" q || str_in "testimonials" q
          || str_in "what do students say" q
  then ANSWER_ALUMNI
  (* Fees, transport, boarding etc. *)
  else if any_in ["fees"; "school fees"; "tuition"; "scholarship"; "bus";
                  "transport"; "boarding"; "hostel"] q
  then ANSWER_FEES
  (* Fallback *)
  else ANSWER_FALLBACK.

Definition results_lookup (data : request) : State response :=
  let pin := strip (or_empty (pin data)) in
  let subject_raw := lower (strip (or_empty (subject data))) in
  if falsy pin then ret (Error MISSING_PIN, 400%Z)
  else
    record ← RESULTS_BY_PIN_get pin;
    match record with
    | None =>
        (* Do not reveal whether the PIN is close/valid; just say it's invalid. *)
        ret (Error INVALID_PIN, 403%Z)
    | Some record =>
        let subjects := subjects record in
        if falsy subject_raw then
          (* Return all subjects for this PIN *)
          ret (AllSubjects (student_name record) (class record)
                           (session record) (term record) subjects, 200%Z)
        else
          (* Normalise some common subject aliases *)
          let subject_key := default subject_raw (alias_map !! subject_raw) in
          match subjects !! subject_key with
          | None => ret (Error (no_result_for subject_raw), 404%Z)
          | Some subject_result =>
              ret (SingleSubject (student_name record) (class record)
                                 (session record) (term record) subject_key
                                 (score subject_result) (grade subject_result),
                   200%Z)
          end
    end.

End Methods.

End Runtime.

(* ===================================================================== *)
(** ** Facts about the string primitives *)
(* ===================================================================== *)

Section StringFacts.

Lemma append_nil (s : string) : "" +:+ s = s.
Proof. reflexivity. Qed.

Lemma append_cons (c : ascii) (a b : string) :
  String c a +:+ b = String c (a +:+ b).
Proof. reflexivity. Qed.

Lemma append_assoc (a b c : string) : (a +:+ b) +:+ c = a +:+ b +:+ c.
Proof.
  induction a as [|x a IH]; [reflexivity|].
  now rewrite !append_cons, IH.
Qed.

Lemma prefix_spec (p s : string) :
  String.prefix p s = true <-> exists r, s = p +:+ r.
Proof.
  revert p. induction s as [|y s IH]; intros [|x p]; simpl.
  - split; [exists EmptyString; reflexivity | reflexivity].
  - split; [discriminate | intros [r Hr]; discriminate Hr].
  - split; [eexists; reflexivity | reflexivity].
  - destruct (ascii_dec x y) as [->|Hxy].
    + rewrite IH. split; intros [r Hr]; exists r.
      * now rewrite append_cons, <- Hr.
      * rewrite append_cons in Hr. congruence.
    + split; [discriminate|].
      intros [r Hr]. rewrite append_cons in Hr. congruence.
Qed.

(** [str_in] is substring containment. *)
Lemma str_in_spec (word q : string) :
  str_in word q = true <-> exists a b, q = a +:+ word +:+ b.
Proof.
  induction q as [|y q IH]; cbn [str_in]; rewrite orb_true_iff, prefix_spec.
  - split.
    + intros [[r Hr] | Hf]; [exists EmptyString, r; exact Hr | discriminate].
    + intros [[|x a] [b Hab]]; [left; exists b; exact Hab | discriminate].
  - rewrite IH. split.
    + intros [[r Hr] | [a [b Hab]]].
      * exists EmptyString, r. exact Hr.
      * exists (String y a), b. now rewrite append_cons, Hab.
    + intros [[|x a] [b Hab]].
      * left. exists b. exact Hab.
      * right. exists a, b. rewrite append_cons in Hab. congruence.
Qed.

Lemma str_in_trans (a b c : string) :
  str_in a b = true -> str_in b c = true -> str_in a c = true.
Proof.
  rewrite !str_in_spec. intros (u & v & ->) (x & y & ->).
  exists (x +:+ u), (v +:+ y). now rewrite !append_assoc.
Qed.

Lemma any_in_spec (kws : list string) (q : string) :
  any_in kws q = true <-> exists word, In word kws /\ str_in word q = true.
Proof. unfold any_in. apply existsb_exists. Qed.

Lemma any_in_intro (word : string) (kws : list string) (q : string) :
  In word kws -> str_in word q = true -> any_in kws q = true.
Proof. intros Hin Hq. apply any_in_spec. eauto. Qed.

Lemma falsy_spec (s : string) : falsy s = true <-> s = EmptyString.
Proof. destruct s; simpl; split; congruence. Qed.

Lemma falsy_false (s : string) : falsy s = false <-> s <> EmptyString.
Proof. destruct s; simpl; split; congruence. Qed.

End StringFacts.

(* ===================================================================== *)
(** ** The cascade is a first-match dispatcher over [RULES] *)
(* ===================================================================== *)

Lemma answer_question_dispatch (question : string) :
  answer_question question = dispatch RULES (lower question).
Proof.
  unfold answer_question. cbv zeta.
  generalize (lower question) as q. intros q.
  unfold RULES, dispatch, any_in. cbn [existsb].
  rewrite !orb_false_r, !orb_assoc. reflexivity.
Qed.

Lemma runtime_answer_dispatch (lower : string -> string) (question : string) :
  Runtime.answer_question lower question = dispatch RULES (lower question).
Proof.
  unfold Runtime.answer_question. cbv zeta.
  generalize (lower question) as q. intros q.
  unfold RULES, dispatch, any_in. cbn [existsb].
  rewrite !orb_false_r, !orb_assoc. reflexivity.
Qed.

(** With the ASCII methods the two components are the ones above. *)
Lemma runtime_ascii (question : string) (data : request) :
  Runtime.answer_question lower question = answer_question question /\
  Runtime.results_lookup lower strip data = results_lookup data.
Proof. split; reflexivity. Qed.

Section Dispatch.

Variable q : string.

Lemma dispatch_hit kws answer rest :
  any_in kws q = true -> dispatch ((kws, answer) :: rest) q = answer.
Proof. intros H. simpl. now rewrite H. Qed.

Lemma dispatch_skip kws answer rest :
  any_in kws q = false -> dispatch ((kws, answer) :: rest) q = dispatch rest q.
Proof. intros H. simpl. now rewrite H. Qed.

(** No group matches: the fallback. *)
Lemma dispatch_none rules :
  Forall (fun r => any_in r.1 q = false) rules ->
  dispatch rules q = ANSWER_FALLBACK.
Proof.
  induction 1 as [|[kws answer] rest Hr _ IH]; [reflexivity|].
  simpl in Hr. now rewrite dispatch_skip.
Qed.

(** The answer is the fallback or the answer of a group of the list. *)
Lemma dispatch_range rules :
  dispatch rules q = ANSWER_FALLBACK \/ In (dispatch rules q) (map snd rules).
Proof.
  induction rules as [|[kws answer] rest IH]; [now left|].
  simpl. destruct (any_in kws q); [right; now left | tauto].
Qed.

(** When a group matches, the answer comes from that group or from one
    before it. *)
Lemma dispatch_upto before kws answer rest :
  any_in kws q = true ->
  In (dispatch (before ++ (kws, answer) :: rest) q)
     (map snd (before ++ [(kws, answer)])).
Proof.
  intros H. induction before as [|[kws' answer'] before IH]; simpl.
  - rewrite H. now left.
  - destruct (any_in kws' q); [now left | right; exact IH].
Qed.

End Dispatch.

(** Comparing strings by evaluation. *)
Lemma differs_from (excluded : string) (l : list string) (a : string) :
  forallb (fun x => negb (String.eqb x excluded)) l = true ->
  In a l -> a <> excluded.
Proof.
  intros Hall Hin Heq. rewrite forallb_forall in Hall.
  specialize (Hall a Hin). subst a. now rewrite String.eqb_refl in Hall.
Qed.

(* ===================================================================== *)
(** ** Properties of [answer_question] *)
(* ===================================================================== *)

(** C6. A question whose lower-case form contains "address" or "location"
    gets exactly the fixed address answer, the one that gives
    No. 12 Old Pantisawa Road, Jalingo, Taraba State, Nigeria. *)
Theorem address_or_location_answer (question : string) :
  str_in "address" (lower question) = true \/
  str_in "location" (lower question) = true ->
  answer_question question = ANSWER_LOCATION /\
  answer_question question =
    "New Ideal Model Schools (NIMS) is located at No. 12 Old Pantisawa Road, Jalingo, Taraba State, Nigeria.".
Proof.
  intros H.
  assert (Hans : answer_question question = ANSWER_LOCATION).
  { rewrite answer_question_dispatch. unfold RULES. apply dispatch_hit.
    destruct H as [H | H]; eapply any_in_intro; try exact H; simpl; tauto. }
  split; [exact Hans | rewrite Hans; reflexivity].
Qed.

Lemma address_or_location_answer_witness :
  answer_question "Please send me your postal ADDRESS" = ANSWER_LOCATION.
Proof.
  apply (address_or_location_answer "Please send me your postal ADDRESS").
  left. vm_compute. reflexivity.
Defined.

Lemma answers_nonempty :
  forallb (fun x => negb (String.eqb x ""))
          (ANSWER_FALLBACK :: map snd RULES) = true.
Proof. vm_compute. reflexivity. Qed.

(** C4. Whatever [str.lower] does, [answer_question] is defined on every
    string, the empty one included, and its value is never the empty
    string; when none of the keyword groups matches the lower-cased
    question, the value is the fixed fallback text. *)
Theorem answer_question_total (lower : string -> string) (question : string) :
  (exists answer,
      Runtime.answer_question lower question = answer /\ answer <> "") /\
  (Forall (fun rule => any_in rule.1 (lower question) = false) RULES ->
   Runtime.answer_question lower question = ANSWER_FALLBACK).
Proof.
  rewrite runtime_answer_dispatch. split.
  - eexists. split; [reflexivity|].
    apply (differs_from "" _ _ answers_nonempty).
    destruct (dispatch_range (lower question) RULES) as [-> | Hin];
      [now left | now right].
  - apply dispatch_none.
Qed.

Lemma answer_question_total_witness :
  Runtime.answer_question lower "" = ANSWER_FALLBACK /\
  Runtime.answer_question lower "How old is the building?" = ANSWER_FALLBACK.
Proof.
  split.
  - apply (proj2 (answer_question_total lower "")).
    unfold RULES. repeat (constructor; [reflexivity|]). constructor.
  - apply (proj2 (answer_question_total lower "How old is the building?")).
    unfold RULES. repeat (constructor; [vm_compute; reflexivity|]). constructor.
Defined.

(** C10. Keywords are looked for as bare substrings, with no check of word
    boundaries: the one-word question "recall" is no keyword, the only
    keyword that occurs in it is "call", inside the word, and it gets the
    contact answer and not the fallback. *)
Theorem keyword_inside_longer_word :
  exists question,
    words (lower question) = ["recall"] /\
    existsb (String.eqb "recall") KEYWORDS = false /\
    filter (fun word => str_in word (lower question)) KEYWORDS = ["call"] /\
    answer_question question = ANSWER_CONTACT /\
    ANSWER_CONTACT <> ANSWER_FALLBACK.
Proof.
  exists "recall". repeat split; try (vm_compute; reflexivity).
  intros H. vm_compute in H. discriminate H.
Qed.

Lemma principal_in_vice_principal_academic :
  str_in "principal" "vice principal academic" = true /\
  str_in "vice principal" "vice principal academic" = true.
Proof. split; vm_compute; reflexivity. Qed.

(** The "principal" test comes before the two vice-principal tests, and
    "principal" is part of "vice principal academic" and of
    "vice principal": a question with either phrase is answered by the
    principal group or by a group before it, never by a vice-principal
    group. *)
Lemma principal_group_shadows (question : string) :
  str_in "vice principal" (lower question) = true ->
  In (answer_question question) (map snd (firstn 12 RULES)) /\
  answer_question question <> ANSWER_VP_ACADEMIC /\
  answer_question question <> ANSWER_VP_SPECIAL_DUTIES.
Proof.
  intros H.
  assert (Hp : any_in ["principal"; "head of school"; "head of schools"]
                      (lower question) = true).
  { apply (any_in_intro "principal"); [now left|].
    apply (str_in_trans _ "vice principal"); [vm_compute; reflexivity | exact H]. }
  pose proof (dispatch_upto (lower question) (firstn 11 RULES) _
                ANSWER_PRINCIPAL (skipn 12 RULES) Hp) as Hin.
  rewrite answer_question_dispatch.
  change (firstn 11 RULES ++ _ :: skipn 12 RULES) with RULES in Hin.
  change (map snd (firstn 11 RULES ++ _)) with (map snd (firstn 12 RULES)) in Hin.
  split; [exact Hin|].
  split; (eapply differs_from; [|exact Hin]); vm_compute; reflexivity.
Qed.

(** C1. The question "Who is the Vice Principal Academic?" contains
    "vice principal academic" once lower-cased and matches no group before
    the principal group; the function answers it with the principal's
    answer, which is not the academic vice principal's. *)
Theorem vice_principal_academic_gets_principal_answer :
  str_in "vice principal academic"
         (lower "Who is the Vice Principal Academic?") = true /\
  forallb (fun rule => negb (any_in rule.1 (lower "Who is the Vice Principal Academic?")))
          (firstn 11 RULES) = true /\
  answer_question "Who is the Vice Principal Academic?" = ANSWER_PRINCIPAL /\
  ANSWER_PRINCIPAL <> ANSWER_VP_ACADEMIC.
Proof.
  repeat split; try (vm_compute; reflexivity).
  intros H. vm_compute in H. discriminate H.
Qed.

(* ===================================================================== *)
(** ** The branches of [results_lookup] *)
(* ===================================================================== *)

Ltac run_handler :=
  cbv beta iota zeta
      delta [results_lookup mbind State_bind ret mret State_ret
             RESULTS_BY_PIN_get].

Section Branches.

Variable g : globals.
Variable data : request.

Local Notation the_pin := (strip (or_empty (pin data))).
Local Notation subject_raw := (lower (strip (or_empty (subject data)))).

Lemma lookup_missing_pin :
  the_pin = "" ->
  results_lookup data g = ((Error MISSING_PIN, 400%Z), g).
Proof.
  intros H. run_handler. now rewrite H.
Qed.

Lemma lookup_invalid_pin :
  the_pin <> "" ->
  G_RESULTS_BY_PIN g !! the_pin = None ->
  results_lookup data g = ((Error INVALID_PIN, 403%Z), g).
Proof.
  intros Hne Hnone. run_handler.
  apply falsy_false in Hne. now rewrite Hne, Hnone.
Qed.

Lemma lookup_all_subjects (record : StudentRecord) :
  the_pin <> "" ->
  G_RESULTS_BY_PIN g !! the_pin = Some record ->
  subject_raw = "" ->
  results_lookup data g =
    ((AllSubjects (student_name record) (class record) (session record)
                  (term record) (subjects record), 200%Z), g).
Proof.
  intros Hne Hrec Hs. run_handler.
  apply falsy_false in Hne. now rewrite Hne, Hrec, Hs.
Qed.

Lemma lookup_subject_not_found (record : StudentRecord) :
  the_pin <> "" ->
  G_RESULTS_BY_PIN g !! the_pin = Some record ->
  subject_raw <> "" ->
  subjects record !! default subject_raw (alias_map !! subject_raw) = None ->
  results_lookup data g = ((Error (no_result_for subject_raw), 404%Z), g).
Proof.
  intros Hne Hrec Hs Hnone. run_handler.
  apply falsy_false in Hne, Hs. now rewrite Hne, Hrec, Hs, Hnone.
Qed.

Lemma lookup_single_subject (record : StudentRecord) (result : SubjectResult) :
  the_pin <> "" ->
  G_RESULTS_BY_PIN g !! the_pin = Some record ->
  subject_raw <> "" ->
  subjects record !! default subject_raw (alias_map !! subject_raw)
    = Some result ->
  results_lookup data g =
    ((SingleSubject (student_name record) (class record) (session record)
                    (term record)
                    (default subject_raw (alias_map !! subject_raw))
                    (score result) (grade result), 200%Z), g).
Proof.
  intros Hne Hrec Hs Hsome. run_handler.
  apply falsy_false in Hne, Hs. now rewrite Hne, Hrec, Hs, Hsome.
Qed.

(** The handler only reads the globals. *)
Lemma results_lookup_globals : (results_lookup data g).2 = g.
Proof.
  run_handler.
  destruct (falsy _); [reflexivity|].
  destruct (G_RESULTS_BY_PIN g !! _) as [record|]; [|reflexivity].
  destruct (falsy _); [reflexivity|].
  destruct (subjects record !! _); reflexivity.
Qed.

(** Every error the handler reports is one of three, and the text of
    each is fixed by its kind and the subject field. *)
Lemma results_lookup_errors (error : string) (status : Z) :
  (results_lookup data g).1 = (Error error, status) ->
  (error = MISSING_PIN /\ status = 400%Z) \/
  (error = INVALID_PIN /\ status = 403%Z) \/
  (error = no_result_for subject_raw /\ status = 404%Z).
Proof.
  run_handler.
  destruct (falsy _); [intros [= <- <-]; tauto|].
  destruct (G_RESULTS_BY_PIN g !! _) as [record|];
    [|intros [= <- <-]; tauto].
  destruct (falsy _); [discriminate|].
  destruct (subjects record !! _); [discriminate|].
  intros [= <- <-]. tauto.
Qed.

End Branches.

Ltac run_runtime_handler :=
  cbv beta iota zeta
      delta [Runtime.results_lookup mbind State_bind ret mret State_ret
             RESULTS_BY_PIN_get].

(** The same branches whatever [str.lower] and [str.strip] do. *)
Section RuntimeBranches.

Variable lower : string -> string.
Variable strip : string -> string.
Variable g : globals.
Variable data : request.

Local Notation the_pin := (strip (or_empty (pin data))).
Local Notation subject_raw := (lower (strip (or_empty (subject data)))).

Lemma runtime_missing_pin :
  the_pin = "" ->
  Runtime.results_lookup lower strip data g = ((Error MISSING_PIN, 400%Z), g).
Proof. intros H. run_runtime_handler. now rewrite H. Qed.

Lemma runtime_invalid_pin :
  the_pin <> "" ->
  G_RESULTS_BY_PIN g !! the_pin = None ->
  Runtime.results_lookup lower strip data g = ((Error INVALID_PIN, 403%Z), g).
Proof.
  intros Hne Hnone. run_runtime_handler.
  apply falsy_false in Hne. now rewrite Hne, Hnone.
Qed.

Lemma runtime_subject_not_found (record : StudentRecord) :
  the_pin <> "" ->
  G_RESULTS_BY_PIN g !! the_pin = Some record ->
  subject_raw <> "" ->
  subjects record !! default subject_raw (alias_map !! subject_raw) = None ->
  Runtime.results_lookup lower strip data g
  = ((Error (no_result_for subject_raw), 404%Z), g).
Proof.
  intros Hne Hrec Hs Hnone. run_runtime_handler.
  apply falsy_false in Hne, Hs. now rewrite Hne, Hrec, Hs, Hnone.
Qed.

Lemma runtime_errors (error : string) (status : Z) :
  (Runtime.results_lookup lower strip data g).1 = (Error error, status) ->
  (error = MISSING_PIN /\ status = 400%Z) \/
  (error = INVALID_PIN /\ status = 403%Z) \/
  (error = no_result_for subject_raw /\ status = 404%Z).
Proof.
  run_runtime_handler.
  destruct (falsy _); [intros [= <- <-]; tauto|].
  destruct (G_RESULTS_BY_PIN g !! _) as [record|];
    [|intros [= <- <-]; tauto].
  destruct (falsy _); [discriminate|].
  destruct (subjects record !! _); [discriminate|].
  intros [= <- <-]. tauto.
Qed.

End RuntimeBranches.

Lemma table_keys_nonempty (p : string) (record : StudentRecord) :
  RESULTS_BY_PIN !! p = Some record -> p <> "".
Proof. intros H ->. vm_compute in H. discriminate H. Qed.

(* ===================================================================== *)
(** ** Properties of [results_lookup] *)
(* ===================================================================== *)

(** C2, as stated, fails: the message carries the subject after trimming
    and lower-casing, so "Biology" is echoed as 'biology'. *)
Lemma subject_echo_is_lowercased :
  (exists record, RESULTS_BY_PIN !! "5678" = Some record /\
                  subjects record !! "biology" = None) /\
  call (results_lookup {| pin := Some "5678"; subject := Some "Biology" |})
    = (Error (no_result_for "biology"), 404%Z) /\
  call (results_lookup {| pin := Some "5678"; subject := Some "Biology" |})
    <> (Error (no_result_for "Biology"), 404%Z).
Proof.
  split; [eexists; split; vm_compute; reflexivity|].
  split; [vm_compute; reflexivity|].
  intros H. vm_compute in H. discriminate H.
Qed.

(** C2, amended. Whatever [str.strip] and [str.lower] do: for a PIN that
    is in the record table once trimmed and a subject that is not empty
    once trimmed and lower-cased and, resolved through the alias table, has
    no entry in the student's subject map, the result is the 404 error
    whose message echoes the trimmed, lower-cased subject text as it was
    before alias resolution. *)
Theorem subject_not_found_echo
    (lower strip : string -> string) (p s : string) (record : StudentRecord) :
  RESULTS_BY_PIN !! strip p = Some record ->
  lower (strip s) <> "" ->
  subjects record
    !! default (lower (strip s)) (alias_map !! lower (strip s)) = None ->
  call (Runtime.results_lookup lower strip
          {| pin := Some p; subject := Some s |})
    = (Error ("No recorded result for subject '" +:+ lower (strip s)
              +:+ "' for this student."), 404%Z).
Proof.
  intros Hrec Hs Hnone. unfold call.
  erewrite runtime_subject_not_found;
    [reflexivity | | exact Hrec | exact Hs | exact Hnone].
  exact (table_keys_nonempty _ _ Hrec).
Qed.

Lemma subject_not_found_echo_witness :
  call (Runtime.results_lookup lower strip
          {| pin := Some "5678"; subject := Some " Biology " |})
    = (Error "No recorded result for subject 'biology' for this student.", 404%Z).
Proof.
  refine (subject_not_found_echo lower strip "5678" " Biology " _ _ _ _).
  - vm_compute. reflexivity.
  - vm_compute. discriminate.
  - vm_compute. reflexivity.
Defined.

(** C3, as stated, fails: the empty PIN is absent from the table, and the
    handler answers it with the missing-field error, status 400, not with
    the invalid-PIN error. *)
Lemma empty_pin_is_missing_not_invalid :
  RESULTS_BY_PIN !! "" = None /\
  call (results_lookup {| pin := Some ""; subject := None |})
    = (Error MISSING_PIN, 400%Z) /\
  call (results_lookup {| pin := Some ""; subject := None |})
    <> (Error INVALID_PIN, 403%Z).
Proof.
  split; [vm_compute; reflexivity|].
  split; [vm_compute; reflexivity|].
  intros H. vm_compute in H. discriminate H.
Qed.

(** C3, amended. Whatever [str.strip] does: for a PIN absent from the
    record table once trimmed, the result depends on nothing but whether
    the trimmed PIN is empty: a non-empty one always gets the same
    invalid-PIN error, status 403 and the fixed message, whatever the PIN
    and the subject are; an empty or blank one gets the missing-field error,
    status 400. *)
Theorem absent_pin_outcome (lower strip : string -> string) (data : request) :
  RESULTS_BY_PIN !! strip (or_empty (pin data)) = None ->
  call (Runtime.results_lookup lower strip data)
    = if falsy (strip (or_empty (pin data)))
      then (Error "Missing 'pin' in request body.", 400%Z)
      else (Error "Invalid PIN. Please check and try again.", 403%Z).
Proof.
  intros Hnone. unfold call.
  destruct (falsy (strip (or_empty (pin data)))) eqn:Hf.
  - apply falsy_spec in Hf. now rewrite runtime_missing_pin.
  - apply falsy_false in Hf. now rewrite runtime_invalid_pin.
Qed.

Lemma absent_pin_outcome_witness :
  call (Runtime.results_lookup lower strip
          {| pin := Some "1235"; subject := Some "math" |})
    = (Error INVALID_PIN, 403%Z) /\
  call (Runtime.results_lookup lower strip
          {| pin := Some " 9999 "; subject := None |})
    = (Error INVALID_PIN, 403%Z) /\
  call (Runtime.results_lookup lower strip
          {| pin := None; subject := Some "math" |})
    = (Error MISSING_PIN, 400%Z).
Proof.
  split; [|split].
  - refine (absent_pin_outcome lower strip
              {| pin := Some "1235"; subject := Some "math" |} _).
    vm_compute. reflexivity.
  - refine (absent_pin_outcome lower strip
              {| pin := Some " 9999 "; subject := None |} _).
    vm_compute. reflexivity.
  - refine (absent_pin_outcome lower strip
              {| pin := None; subject := Some "math" |} _).
    vm_compute. reflexivity.
Defined.

(** C7. PIN "1234" with an empty subject gives, with status 200, all
    subjects of Aisha Ibrahim with her class, session and term: exactly
    four subjects, with scores mathematics 88, english 82, science 79 and
    social studies 85. *)
Theorem all_subjects_of_1234 :
  exists subjects : gmap string SubjectResult,
    call (results_lookup {| pin := Some "1234"; subject := Some "" |})
      = (AllSubjects "Aisha Ibrahim" "Year 6 Zebra" "2024/2025" "Second Term"
                     subjects, 200%Z) /\
    call (results_lookup {| pin := Some "1234"; subject := None |})
      = (AllSubjects "Aisha Ibrahim" "Year 6 Zebra" "2024/2025" "Second Term"
                     subjects, 200%Z) /\
    size subjects = 4 /\
    score <$> subjects
      = ({[ "mathematics" := 88%Z; "english" := 82%Z; "science" := 79%Z;
            "social studies" := 85%Z ]} : gmap string Z).
Proof.
  eexists. split; [vm_compute; reflexivity|].
  repeat split; vm_compute; reflexivity.
Qed.

(** C8. PIN "1234" with subject "math": the alias table turns "math" into
    "mathematics" and the result is the single subject mathematics, score
    88, grade "A".  A subject that the alias table does not list is looked
    up under its own (trimmed, lower-cased) name. *)
Theorem math_alias_resolves :
  alias_map !! "math" = Some "mathematics" /\
  call (results_lookup {| pin := Some "1234"; subject := Some "math" |})
    = (SingleSubject "Aisha Ibrahim" "Year 6 Zebra" "2024/2025" "Second Term"
                     "mathematics" 88%Z "A", 200%Z) /\
  (forall (p s : string) (record : StudentRecord) (result : SubjectResult),
      RESULTS_BY_PIN !! strip p = Some record ->
      lower (strip s) <> "" ->
      alias_map !! lower (strip s) = None ->
      subjects record !! lower (strip s) = Some result ->
      call (results_lookup {| pin := Some p; subject := Some s |})
        = (SingleSubject (student_name record) (class record) (session record)
                         (term record) (lower (strip s))
                         (score result) (grade result), 200%Z)).
Proof.
  split; [vm_compute; reflexivity|].
  split; [vm_compute; reflexivity|].
  intros p s record result Hrec Hs Halias Hsome. unfold call.
  erewrite lookup_single_subject;
    [ | exact (table_keys_nonempty _ _ Hrec) | exact Hrec | exact Hs | ];
    cbn [pin subject or_empty]; rewrite Halias; [reflexivity | exact Hsome].
Qed.

Lemma math_alias_resolves_witness :
  call (results_lookup {| pin := Some "5678"; subject := Some "Physics" |})
    = (SingleSubject "David Okafor" "Year 9 Beryl" "2024/2025" "Second Term"
                     "physics" 76%Z "B+", 200%Z).
Proof.
  refine (proj2 (proj2 math_alias_resolves) "5678" "Physics"
            {| student_name := "David Okafor"; class := "Year 9 Beryl";
               session := "2024/2025"; term := "Second Term";
               subjects := _ |}
            {| score := 76%Z; grade := "B+" |} _ _ _ _).
  - vm_compute. reflexivity.
  - vm_compute. discriminate.
  - vm_compute. reflexivity.
  - vm_compute. reflexivity.
Defined.

(** C9, as stated, fails: with the PIN "1234" and the subject "1234" the
    error message contains the PIN that was supplied. *)
Lemma error_can_contain_the_pin :
  call (results_lookup {| pin := Some "1234"; subject := Some "1234" |})
    = (Error "No recorded result for subject '1234' for this student.", 404%Z) /\
  str_in "1234" "No recorded result for subject '1234' for this student." = true.
Proof. split; vm_compute; reflexivity. Qed.

(** C9, amended. Whatever [str.strip] and [str.lower] do, no error message
    is built from the PIN: an error of [results_lookup] is the fixed
    missing-field message (400), the fixed invalid-PIN message (403), or
    the subject-not-found message (404), which interpolates the trimmed,
    lower-cased subject text and nothing else. *)
Theorem errors_do_not_use_the_pin
    (lower strip : string -> string) (data : request)
    (error : string) (status : Z) :
  call (Runtime.results_lookup lower strip data) = (Error error, status) ->
  (error = "Missing 'pin' in request body." /\ status = 400%Z) \/
  (error = "Invalid PIN. Please check and try again." /\ status = 403%Z) \/
  (error = "No recorded result for subject '"
           +:+ lower (strip (or_empty (subject data)))
           +:+ "' for this student." /\ status = 404%Z).
Proof. unfold call. apply runtime_errors. Qed.

Lemma errors_do_not_use_the_pin_witness :
  "Invalid PIN. Please check and try again." = "Missing 'pin' in request body."
    /\ 403%Z = 400%Z \/
  "Invalid PIN. Please check and try again."
    = "Invalid PIN. Please check and try again." /\ 403%Z = 403%Z \/
  "Invalid PIN. Please check and try again."
    = "No recorded result for subject '" +:+ "english" +:+ "' for this student."
    /\ 403%Z = 404%Z.
Proof.
  refine (errors_do_not_use_the_pin lower strip
            {| pin := Some "0000"; subject := Some " English " |} _ _ _).
  vm_compute. reflexivity.
Defined.

(* ===================================================================== *)
(** ** Repeated and interleaved calls *)
(* ===================================================================== *)

Lemma perform_run (g : globals) (c : invocation) :
  perform c g = ((perform c g).1, g).
Proof.
  destruct c as [question | data]; [reflexivity|].
  pose proof (results_lookup_globals g data) as Hg.
  cbv beta iota delta [perform mbind State_bind ret mret State_ret].
  destruct (results_lookup data g) as [r g']. simpl in Hg. now subst g'.
Qed.

Lemma perform_all_run (g : globals) (cs : list invocation) :
  perform_all cs g = ((fun c => (perform c g).1) <$> cs, g).
Proof.
  induction cs as [|c rest IH]; [reflexivity|].
  cbn [perform_all]. unfold mbind, State_bind at 1.
  rewrite (perform_run g c). unfold mbind, State_bind at 1.
  now rewrite IH.
Qed.

(** C5. Whatever the globals are and whatever calls of [answer_question]
    and [results_lookup] are made one after the other, the globals (the
    record table) are the same afterwards, every call's outcome is the one
    the same call has when made alone, and so two calls with the same
    argument have the same outcome wherever they stand in the sequence.
    The keyword lists and the alias table are rebuilt from literals in each
    call, so no call can see another one's copy. *)
Theorem calls_are_repeatable (g : globals) (cs : list invocation) :
  (perform_all cs g).2 = g /\
  (perform_all cs g).1 = (fun c => (perform c g).1) <$> cs /\
  (forall (i j : nat) (c : invocation),
      cs !! i = Some c -> cs !! j = Some c ->
      (perform_all cs g).1 !! i = (perform_all cs g).1 !! j).
Proof.
  rewrite perform_all_run. cbn [fst snd].
  split; [reflexivity|]. split; [reflexivity|].
  intros i j c Hi Hj. now rewrite !list_lookup_fmap, Hi, Hj.
Qed.

Lemma calls_are_repeatable_witness :
  let first := Lookup {| pin := Some "1234"; subject := Some "maths" |} in
  let cs := [first; Ask "Where are you?"; Lookup {| pin := None; subject := None |};
             Ask "Where are you?"; first] in
  (perform_all cs BOOT).1 !! 0 = (perform_all cs BOOT).1 !! 4 /\
  (perform_all cs BOOT).1 !! 1 = (perform_all cs BOOT).1 !! 3 /\
  (perform_all cs BOOT).2 = BOOT.
Proof.
  intros first cs.
  pose proof (calls_are_repeatable BOOT cs) as (Hg & _ & Hsame).
  split; [|split].
  - exact (Hsame 0 4 first eq_refl eq_refl).
  - exact (Hsame 1 3 (Ask "Where are you?") eq_refl eq_refl).
  - exact Hg.
Defined.

(* ===================================================================== *)
(** ** Trimming and lower-casing *)
(* ===================================================================== *)

Section Normalisation.

Lemma lower_char_idem (c : ascii) : lower_char (lower_char c) = lower_char c.
Proof. destruct c as [[] [] [] [] [] [] [] []]; reflexivity. Qed.

Lemma is_space_lower_char (c : ascii) : is_space (lower_char c) = is_space c.
Proof. destruct c as [[] [] [] [] [] [] [] []]; reflexivity. Qed.

Lemma lower_idem (s : string) : lower (lower s) = lower s.
Proof.
  induction s as [|c s IH]; [reflexivity|].
  cbn [lower]. now rewrite lower_char_idem, IH.
Qed.

Lemma lower_lstrip (s : string) : lower (lstrip s) = lstrip (lower s).
Proof.
  induction s as [|c s IH]; [reflexivity|].
  cbn [lower lstrip]. rewrite is_space_lower_char.
  destruct (is_space c); [exact IH | reflexivity].
Qed.

Lemma lower_rstrip (s : string) : lower (rstrip s) = rstrip (lower s).
Proof.
  induction s as [|c s IH]; [reflexivity|].
  cbn [lower rstrip]. rewrite <- IH, is_space_lower_char.
  destruct (rstrip s) as [|d r]; cbn [lower]; [|reflexivity].
  destruct (is_space c); reflexivity.
Qed.

Lemma lower_strip (s : string) : lower (strip s) = strip (lower s).
Proof. unfold strip. now rewrite lower_rstrip, lower_lstrip. Qed.

Lemma lstrip_trimmed_left (s : string) : trimmed_left (lstrip s).
Proof.
  induction s as [|c s IH]; [exact I|].
  cbn [lstrip]. destruct (is_space c) eqn:Hc; [exact IH | exact Hc].
Qed.

Lemma lstrip_fixed (s : string) : trimmed_left s -> lstrip s = s.
Proof. destruct s as [|c s]; [reflexivity|]. cbn. now intros ->. Qed.

Lemma rstrip_trimmed_left (s : string) : trimmed_left s -> trimmed_left (rstrip s).
Proof.
  destruct s as [|c s]; [intros _; exact I|].
  cbn [trimmed_left rstrip]. intros Hc.
  destruct (rstrip s); [rewrite Hc|]; exact Hc.
Qed.

Lemma rstrip_idem (s : string) : rstrip (rstrip s) = rstrip s.
Proof.
  induction s as [|c s IH]; [reflexivity|].
  cbn [rstrip]. destruct (rstrip s) as [|d r] eqn:Hr.
  - destruct (is_space c) eqn:Hc; [reflexivity|]. cbn [rstrip]. now rewrite Hc.
  - cbn [rstrip]. cbn [rstrip] in IH. now rewrite IH.
Qed.

(** [s.strip().strip() == s.strip()] *)
Lemma strip_idem (s : string) : strip (strip s) = strip s.
Proof.
  unfold strip.
  rewrite (lstrip_fixed (rstrip (lstrip s))).
  - apply rstrip_idem.
  - apply rstrip_trimmed_left, lstrip_trimmed_left.
Qed.

End Normalisation.

(* ===================================================================== *)
(** ** Keywords and trimming *)
(* ===================================================================== *)

Section SolidWords.

Lemma prefix_nil_r (w : string) : String.prefix w "" = falsy w.
Proof. destruct w; reflexivity. Qed.

Lemma prefix_nil_l (s : string) : String.prefix "" s = true.
Proof. destruct s; reflexivity. Qed.

Lemma prefix_cons (c d : ascii) (w s : string) :
  String.prefix (String c w) (String d s)
  = if ascii_dec c d then String.prefix w s else false.
Proof. reflexivity. Qed.

Lemma str_in_nil_r (w : string) : str_in w "" = falsy w.
Proof. cbn [str_in]. rewrite prefix_nil_r. apply orb_false_r. Qed.

Lemma ends_nonspace_cons (c : ascii) (w : string) :
  ends_nonspace (String c w)
  = if falsy w then negb (is_space c) else ends_nonspace w.
Proof. destruct w; reflexivity. Qed.

Lemma str_in_lstrip (w q : string) :
  starts_nonspace w = true -> str_in w (lstrip q) = str_in w q.
Proof.
  destruct w as [|c w]; [discriminate|]. cbn [starts_nonspace]. intros Hc.
  induction q as [|d q IH]; [reflexivity|].
  cbn [lstrip]. destruct (is_space d) eqn:Hd; [|reflexivity].
  rewrite IH. cbn [str_in]. rewrite prefix_cons.
  destruct (ascii_dec c d) as [->|_]; [|reflexivity].
  now rewrite Hd in Hc.
Qed.

(** A word that ends in a character that is no white space is a prefix of
    [s] exactly when it is one of [s] without its trailing white space. *)
Lemma prefix_rstrip (w s : string) :
  ends_nonspace w = true -> String.prefix w (rstrip s) = String.prefix w s.
Proof.
  revert w. induction s as [|d s IH]; intros w Hw; [reflexivity|].
  destruct w as [|c w]; [discriminate|].
  rewrite ends_nonspace_cons in Hw.
  assert (Htail : String.prefix w (rstrip s) = String.prefix w s).
  { destruct w as [|c' w]; [now rewrite !prefix_nil_l|]. now apply IH. }
  cbn [rstrip]. destruct (rstrip s) as [|e r] eqn:Hr.
  - rewrite prefix_nil_r in Htail.
    destruct (is_space d) eqn:Hd.
    + rewrite prefix_nil_r, prefix_cons. cbn [falsy].
      destruct (ascii_dec c d) as [->|_]; [|reflexivity].
      rewrite <- Htail. destruct w; cbn [falsy] in *; [|reflexivity].
      now rewrite Hd in Hw.
    + rewrite !prefix_cons, prefix_nil_r. now rewrite Htail.
  - rewrite !prefix_cons. now rewrite Htail.
Qed.

Lemma str_in_rstrip (w q : string) :
  ends_nonspace w = true -> str_in w (rstrip q) = str_in w q.
Proof.
  intros Hw. induction q as [|d q IH]; [reflexivity|].
  assert (Hne : falsy w = false) by (now destruct w).
  pose proof (prefix_rstrip w (String d q) Hw) as Hp.
  cbn [rstrip] in *. destruct (rstrip q) as [|e r] eqn:Hr.
  - rewrite str_in_nil_r, Hne in IH.
    destruct (is_space d).
    + rewrite str_in_nil_r, Hne. cbn [str_in]. rewrite <- Hp, <- IH.
      now rewrite prefix_nil_r, Hne.
    + cbn [str_in]. rewrite Hp, <- IH. now rewrite prefix_nil_r, Hne.
  - change (str_in w (String d (String e r))
            = str_in w (String d q)).
    rewrite (eq_refl : str_in w (String d (String e r))
                       = String.prefix w (String d (String e r))
                         || str_in w (String e r)).
    rewrite (eq_refl : str_in w (String d q)
                       = String.prefix w (String d q) || str_in w q).
    now rewrite Hp, IH.
Qed.

Lemma str_in_strip (w q : string) :
  solid w = true -> str_in w (strip q) = str_in w q.
Proof.
  unfold solid. rewrite andb_true_iff. intros [Hs He].
  unfold strip. now rewrite str_in_rstrip, str_in_lstrip.
Qed.

Lemma any_in_strip (kws : list string) (q : string) :
  forallb solid kws = true -> any_in kws (strip q) = any_in kws q.
Proof.
  unfold any_in. induction kws as [|w kws IH]; [reflexivity|].
  cbn [forallb existsb]. rewrite andb_true_iff. intros [Hw Hrest].
  now rewrite str_in_strip, IH.
Qed.

Lemma dispatch_strip (rules : list (list string * string)) (q : string) :
  forallb (fun rule => forallb solid rule.1) rules = true ->
  dispatch rules (strip q) = dispatch rules q.
Proof.
  induction rules as [|[kws answer] rules IH]; [reflexivity|].
  cbn [forallb dispatch fst]. rewrite andb_true_iff. intros [Hk Hrest].
  now rewrite any_in_strip, IH.
Qed.

Lemma keywords_solid :
  forallb (fun rule => forallb solid rule.1) RULES = true.
Proof. vm_compute. reflexivity. Qed.

End SolidWords.

(* ===================================================================== *)
(** ** Further properties of [answer_question] *)
(* ===================================================================== *)

Lemma answers_distinct : NoDup (ANSWER_FALLBACK :: map snd RULES).
Proof. apply (bool_decide_unpack _). vm_compute. reflexivity. Qed.

Lemma dispatch_first_iff (rules : list (list string * string)) (q : string) :
  NoDup (ANSWER_FALLBACK :: map snd rules) ->
  forall (i : nat) (kws : list string) (answer : string),
    rules !! i = Some (kws, answer) ->
    dispatch rules q = answer <->
    any_in kws q = true /\
    Forall (fun rule => any_in rule.1 q = false) (take i rules).
Proof.
  induction rules as [|[k0 a0] rest IH]; intros Hnd i kws answer Hi;
    [discriminate|].
  assert (Hnd' : NoDup (ANSWER_FALLBACK :: map snd rest)).
  { apply NoDup_cons in Hnd as [Hf Hnd]. apply NoDup_cons in Hnd as [_ Hnd].
    apply NoDup_cons. split; [|exact Hnd].
    intros Hin. apply Hf. now right. }
  assert (Ha0 : ~ In a0 (ANSWER_FALLBACK :: map snd rest)).
  { apply NoDup_cons in Hnd as [Hf Hnd]. apply NoDup_cons in Hnd as [Ha _].
    rewrite <- !list_elem_of_In. intros Hin.
    apply elem_of_cons in Hin as [-> | Hin]; [|now apply Ha].
    apply Hf. now left. }
  cbn [dispatch]. destruct i as [|i]; cbn [take].
  - injection Hi as -> ->. destruct (any_in kws q) eqn:Hk.
    + split; [intros _; split; [reflexivity | constructor] | reflexivity].
    + split; [|intros [? _]; discriminate].
      intros Heq. exfalso. apply Ha0. rewrite <- Heq.
      destruct (dispatch_range q rest) as [-> | Hin]; [now left | now right].
  - cbn in Hi. destruct (any_in k0 q) eqn:Hk.
    + split.
      * intros ->. exfalso. apply Ha0. right.
        apply in_map_iff. exists (kws, answer). split; [reflexivity|].
        apply list_elem_of_In. eapply list_elem_of_lookup_2. exact Hi.
      * intros [_ Hall]. apply Forall_cons in Hall as [Hall _].
        cbn [fst] in Hall. congruence.
    + rewrite (IH Hnd' i kws answer Hi). split.
      * intros [? ?]. split; [assumption|]. now constructor.
      * intros [? Hall]. apply Forall_cons in Hall as [_ Hall]. now split.
Qed.

(** X1. Whatever [str.lower] does, the group that answers is the first one
    that matches the lower-cased question, and since the canned answers
    differ from one another the answer tells which group that was. *)
Theorem answer_is_of_first_matching_group
    (lower : string -> string) (question : string)
    (i : nat) (kws : list string) (answer : string) :
  RULES !! i = Some (kws, answer) ->
  Runtime.answer_question lower question = answer <->
  any_in kws (lower question) = true /\
  Forall (fun rule => any_in rule.1 (lower question) = false) (take i RULES).
Proof.
  intros Hi. rewrite runtime_answer_dispatch.
  exact (dispatch_first_iff RULES (lower question) answers_distinct i kws answer Hi).
Qed.

Lemma answer_is_of_first_matching_group_witness :
  Runtime.answer_question lower "Is Mrs IFEOMA in today?" = ANSWER_VP_ACADEMIC.
Proof.
  apply (answer_is_of_first_matching_group lower "Is Mrs IFEOMA in today?" 12
           ["vice principal academic"; "vp academic"; "ifeoma"]
           ANSWER_VP_ACADEMIC eq_refl).
  split; [vm_compute; reflexivity|].
  cbn [take RULES]. repeat (constructor; [vm_compute; reflexivity|]). constructor.
Defined.

(** X2. Whatever [str.lower] does, the fallback is returned exactly when no
    keyword at all occurs in the lower-cased question. *)
Theorem fallback_iff_no_keyword (lower : string -> string) (question : string) :
  Runtime.answer_question lower question = ANSWER_FALLBACK <->
  forall word, In word KEYWORDS -> str_in word (lower question) = false.
Proof.
  rewrite runtime_answer_dispatch. generalize (lower question) as q. intros q.
  assert (Hkw : (forall word, In word KEYWORDS -> str_in word q = false) <->
                Forall (fun rule => any_in rule.1 q = false) RULES).
  { unfold KEYWORDS. rewrite Forall_forall. split.
    - intros H rule Hrule. apply not_true_is_false. intros Hany.
      apply any_in_spec in Hany as (word & Hin & Hq).
      rewrite H in Hq; [discriminate|].
      apply in_concat. exists rule.1. split; [|exact Hin].
      apply in_map. now apply list_elem_of_In.
    - intros H word Hin. apply in_concat in Hin as (kws & Hkws & Hin).
      apply in_map_iff in Hkws as (rule & <- & Hrule).
      apply not_true_is_false. intros Hq.
      rewrite <- list_elem_of_In in Hrule. specialize (H rule Hrule).
      rewrite (any_in_intro word _ _ Hin Hq) in H. discriminate. }
  rewrite Hkw. split; [|apply dispatch_none].
  intros Heq. pose proof answers_distinct as Hnd.
  apply NoDup_cons in Hnd as [Hf _].
  revert Heq Hf. generalize RULES as rules.
  induction rules as [|[kws answer] rest IH]; intros Heq Hf; [constructor|].
  cbn [dispatch] in Heq. destruct (any_in kws q) eqn:Hk.
  - exfalso. apply Hf. subst answer. now left.
  - constructor; [exact Hk|]. apply IH; [exact Heq|].
    intros Hin. apply Hf. now right.
Qed.

Lemma answer_question_strip (question : string) :
  answer_question (strip question) = answer_question question.
Proof.
  rewrite !answer_question_dispatch, lower_strip.
  apply dispatch_strip, keywords_solid.
Qed.

Lemma answer_question_lower (question : string) :
  answer_question (lower question) = answer_question question.
Proof. rewrite !answer_question_dispatch. now rewrite lower_idem. Qed.

(** X4. Letter case and white space around the question do not matter: the
    trimmed question, the lower-cased question and the question itself all
    get the same answer. *)
Theorem answer_ignores_case_and_padding (question : string) :
  answer_question (strip question) = answer_question question /\
  answer_question (lower question) = answer_question question /\
  answer_question (lower (strip question)) = answer_question question.
Proof.
  split; [apply answer_question_strip|].
  split; [apply answer_question_lower|].
  now rewrite answer_question_lower, answer_question_strip.
Qed.

(** X5. A question made of white space only gets the fallback. *)
Theorem blank_question_gets_fallback (question : string) :
  strip question = "" -> answer_question question = ANSWER_FALLBACK.
Proof.
  intros Hblank. rewrite <- answer_question_strip, Hblank.
  vm_compute. reflexivity.
Qed.

Lemma blank_question_gets_fallback_witness :
  answer_question (" " +:+ nl +:+ "  ") = ANSWER_FALLBACK.
Proof.
  apply (blank_question_gets_fallback (" " +:+ nl +:+ "  ")).
  vm_compute. reflexivity.
Defined.

Lemma orb_absorb (a b r : bool) :
  (b = true -> a = true) -> a || (b || r) = a || r.
Proof. destruct a, b; intros H; try reflexivity. now specialize (H eq_refl). Qed.

Lemma str_in_false_of_part (part word q : string) :
  str_in part word = true -> str_in part q = false -> str_in word q = false.
Proof.
  intros Hpart Hq. apply not_true_is_false. intros Hword.
  rewrite (str_in_trans _ _ _ Hpart Hword) in Hq. discriminate.
Qed.

(** X3. Nine keywords can never decide an answer, because each contains a
    keyword that is tested with it or before it, and they are all the
    keywords of that kind: whatever [str.lower] does, the cascade gives the
    same answer to every question when they are struck out. *)
Theorem redundant_keywords (lower : string -> string) (question : string) :
  REDUNDANT = redundant_in [] RULES /\
  Runtime.answer_question lower question
  = dispatch (prune RULES) (lower question).
Proof.
  split; [vm_compute; reflexivity|].
  rewrite runtime_answer_dispatch. generalize (lower question) as q. intros q.
  cbv [prune RULES REDUNDANT map List.filter existsb negb orb fst snd
       String.eqb Ascii.eqb Bool.eqb].
  cbv [dispatch any_in existsb].
  rewrite (orb_absorb (str_in "about" q) (str_in "tell me about" q))
    by (apply str_in_trans; vm_compute; reflexivity).
  rewrite (orb_absorb (str_in "what is nim" q) (str_in "what is nims" q))
    by (apply str_in_trans; vm_compute; reflexivity).
  rewrite (orb_absorb (str_in "enrol" q) (str_in "enroll" q))
    by (apply str_in_trans; vm_compute; reflexivity).
  rewrite (orb_absorb (str_in "class" q) (str_in "classes" q))
    by (apply str_in_trans; vm_compute; reflexivity).
  rewrite (orb_absorb (str_in "head of school" q) (str_in "head of schools" q))
    by (apply str_in_trans; vm_compute; reflexivity).
  rewrite (orb_absorb (str_in "fees" q) (str_in "school fees" q))
    by (apply str_in_trans; vm_compute; reflexivity).
  destruct (str_in "sport" q) eqn:Hs.
  { cbn [orb]. rewrite !orb_true_r. reflexivity. }
  rewrite (str_in_false_of_part "sport" "transport" q
             ltac:(vm_compute; reflexivity) Hs).
  destruct (str_in "principal" q) eqn:Hp; cbn [orb]; [reflexivity|].
  rewrite (str_in_false_of_part "principal" "vice principal academic" q
             ltac:(vm_compute; reflexivity) Hp).
  rewrite (str_in_false_of_part "principal" "vice principal" q
             ltac:(vm_compute; reflexivity) Hp).
  reflexivity.
Qed.

(* ===================================================================== *)
(** ** Further properties of [results_lookup] *)
(* ===================================================================== *)

(** X7. Whatever the table holds and whatever [str.strip] and [str.lower]
    do, a response of [results_lookup] to string fields is an error
    with status 400, 403 or 404, or it has status 200 and then every field
    of it is read from the record stored under the trimmed PIN: the
    subject reported is a key of that record's subject map and the score
    and grade are the ones stored under it. *)
Theorem lookup_reports_only_the_record
    (lower strip : string -> string) (g : globals) (data : request) :
  match (Runtime.results_lookup lower strip data g).1 with
  | (Error _, status) => status = 400%Z \/ status = 403%Z \/ status = 404%Z
  | (AllSubjects n c se t subs, status) =>
      status = 200%Z /\
      strip (or_empty (pin data)) <> "" /\
      exists record,
        G_RESULTS_BY_PIN g !! strip (or_empty (pin data)) = Some record /\
        n = student_name record /\ c = class record /\
        se = session record /\ t = term record /\ subs = subjects record
  | (SingleSubject n c se t k sc gr, status) =>
      status = 200%Z /\
      strip (or_empty (pin data)) <> "" /\
      exists record result,
        G_RESULTS_BY_PIN g !! strip (or_empty (pin data)) = Some record /\
        subjects record !! k = Some result /\
        n = student_name record /\ c = class record /\
        se = session record /\ t = term record /\
        sc = score result /\ gr = grade result
  end.
Proof.
  run_runtime_handler.
  destruct (falsy (strip (or_empty (pin data)))) eqn:Hpin; cbn [fst];
    [now left|].
  apply falsy_false in Hpin.
  destruct (G_RESULTS_BY_PIN g !! _) as [record|] eqn:Hrec; cbn [fst];
    [|right; now left].
  destruct (falsy _); cbn [fst].
  - split; [reflexivity|]. split; [exact Hpin|]. exists record. tauto.
  - destruct (subjects record !! _) as [result|] eqn:Hres; cbn [fst].
    + split; [reflexivity|]. split; [exact Hpin|]. exists record, result. tauto.
    + right. now right.
Qed.

(** X8. White space around the PIN and around the subject, and the letter case
    of the subject, do not matter: the request with the PIN trimmed and the
    subject trimmed and lower-cased gets the same response. *)
Theorem lookup_ignores_case_and_padding (g : globals) (p s : string) :
  results_lookup {| pin := Some (strip p); subject := Some (lower (strip s)) |} g
  = results_lookup {| pin := Some p; subject := Some s |} g.
Proof.
  run_handler. cbn [pin subject or_empty].
  rewrite strip_idem.
  rewrite <- (lower_strip (strip s)), strip_idem, lower_idem.
  reflexivity.
Qed.



Lemma table_entries (p : string) (record : StudentRecord) :
  RESULTS_BY_PIN !! p = Some record ->
  (p = "1234" \/ p = "5678") /\
  forall (k : string) (result : SubjectResult),
    subjects record !! k = Some result ->
    In k ["mathematics"; "english"; "science"; "social studies"; "physics";
          "chemistry"].
Proof.
  unfold RESULTS_BY_PIN. intros H.
  apply lookup_insert_Some in H as [[<- <-] | [_ H]].
  - split; [now left|]. intros k result Hk. cbn [subjects] in Hk.
    repeat (apply lookup_insert_Some in Hk as [[<- _] | [_ Hk]];
            [cbn; tauto|]).
    apply lookup_singleton_Some in Hk as [<- _]. cbn; tauto.
  - apply lookup_singleton_Some in H as [<- <-].
    split; [now right|]. intros k result Hk. cbn [subjects] in Hk.
    repeat (apply lookup_insert_Some in Hk as [[<- _] | [_ Hk]];
            [cbn; tauto|]).
    apply lookup_singleton_Some in Hk as [<- _]. cbn; tauto.
Qed.

(** X10. Nothing stored in [RESULTS_BY_PIN] is out of reach: every record is
    returned in full for its own PIN, and every subject result of a record
    is returned for its own subject name (no key of the table needs
    trimming or lower-casing, and none is the name of an alias). *)
Theorem stored_results_are_retrievable (p : string) (record : StudentRecord) :
  RESULTS_BY_PIN !! p = Some record ->
  call (results_lookup {| pin := Some p; subject := None |})
    = (AllSubjects (student_name record) (class record) (session record)
                   (term record) (subjects record), 200%Z) /\
  forall (k : string) (result : SubjectResult),
    subjects record !! k = Some result ->
    call (results_lookup {| pin := Some p; subject := Some k |})
      = (SingleSubject (student_name record) (class record) (session record)
                       (term record) k (score result) (grade result), 200%Z).
Proof.
  intros Hrec. destruct (table_entries p record Hrec) as [Hp Hkeys].
  assert (Hstrip : strip p = p) by (destruct Hp as [-> | ->]; reflexivity).
  assert (Hne : strip p <> "") by (destruct Hp as [-> | ->]; discriminate).
  unfold call. split.
  - erewrite lookup_all_subjects; [reflexivity | exact Hne | | reflexivity].
    cbn [pin or_empty]. now rewrite Hstrip.
  - intros k result Hk. specialize (Hkeys k result Hk).
    assert (Hraw : lower (strip k) = k /\ k <> "" /\ alias_map !! k = None).
    { cbn [In] in Hkeys.
      repeat (destruct Hkeys as [<- | Hkeys];
              [split; [reflexivity | split; [discriminate | reflexivity]]|]).
      destruct Hkeys. }
    destruct Hraw as (Hraw & Hk0 & Halias).
    erewrite (lookup_single_subject BOOT _ record result).
    + cbn [pin subject or_empty]. rewrite Hraw, Halias. reflexivity.
    + exact Hne.
    + cbn [pin or_empty]. now rewrite Hstrip.
    + cbn [subject or_empty]. now rewrite Hraw.
    + cbn [pin subject or_empty]. rewrite Hraw, Halias. exact Hk.
Qed.

Lemma stored_results_are_retrievable_witness :
  call (results_lookup {| pin := Some "5678"; subject := Some "chemistry" |})
    = (SingleSubject "David Okafor" "Year 9 Beryl" "2024/2025" "Second Term"
                     "chemistry" 69%Z "C+", 200%Z).
Proof.
  refine (proj2 (stored_results_are_retrievable "5678"
                   {| student_name := "David Okafor"; class := "Year 9 Beryl";
                      session := "2024/2025"; term := "Second Term";
                      subjects := _ |} _)
                "chemistry" {| score := 69%Z; grade := "C+" |} _).
  - vm_compute. reflexivity.
  - vm_compute. reflexivity.
Defined.

(* ===================================================================== *)
(** ** Properties of [assistant] *)
(* ===================================================================== *)

Lemma answer_question_nonempty (question : string) :
  answer_question question <> "".
Proof.
  rewrite answer_question_dispatch.
  apply (differs_from "" _ _ answers_nonempty).
  destruct (dispatch_range (lower question) RULES) as [-> | Hin];
    [now left | now right].
Qed.

(** X11. For ASCII text, [assistant] trims the question before it answers,
    and the trimming changes nothing: a request whose text is not blank
    gets, with status 200, the answer of [answer_question] to the text as it
    was sent, never an empty one; a request whose text is blank or missing
    gets the 400 error, and [answer_question] would have given it the
    fallback. *)
Theorem assistant_outcome (data : assistant_request) :
  let text := or_empty (or_else (question data) (query data)) in
  is_ascii text = true ->
  (strip text = "" ->
   assistant data = (NoAnswer "Missing 'question' in request body.", 400%Z) /\
   answer_question text = ANSWER_FALLBACK) /\
  (strip text <> "" ->
   assistant data = (AnswerIs (answer_question text), 200%Z) /\
   answer_question text <> "").
Proof.
  intros text _. unfold assistant. fold text. split.
  - intros Hblank. rewrite Hblank. split; [reflexivity|].
    rewrite <- answer_question_strip, Hblank. vm_compute. reflexivity.
  - intros Htext. apply falsy_false in Htext. rewrite Htext.
    rewrite answer_question_strip. split; [reflexivity|].
    apply answer_question_nonempty.
Qed.

Lemma assistant_outcome_witness :
  assistant {| question := Some "  Where is the school?  "; query := None |}
    = (AnswerIs (answer_question "  Where is the school?  "), 200%Z) /\
  assistant {| question := None; query := Some "   " |}
    = (NoAnswer "Missing 'question' in request body.", 400%Z).
Proof.
  split.
  - apply (proj2 (assistant_outcome
             {| question := Some "  Where is the school?  "; query := None |}
             eq_refl)).
    vm_compute. discriminate.
  - apply (proj1 (assistant_outcome
             {| question := None; query := Some "   " |} eq_refl)).
    vm_compute. reflexivity.
Defined.

(** X12. The "query" field is read only when "question" is missing, null or the
    empty string.  A "question" that is not empty decides alone, even when
    it is blank: a blank "question" is the 400 error whatever "query"
    holds. *)
Theorem question_has_precedence_over_query
    (q : string) (x : option string) :
  q <> "" ->
  assistant {| question := Some q; query := x |}
    = assistant {| question := Some q; query := None |} /\
  (strip q = "" ->
   assistant {| question := Some q; query := x |}
     = (NoAnswer "Missing 'question' in request body.", 400%Z)).
Proof.
  intros Hq. apply falsy_false in Hq.
  unfold assistant. cbn [question query or_else]. rewrite Hq. cbn [or_empty].
  split; [reflexivity|]. intros ->. reflexivity.
Qed.

Lemma question_has_precedence_over_query_witness :
  assistant {| question := Some "  "; query := Some "What is your address?" |}
    = (NoAnswer "Missing 'question' in request body.", 400%Z).
Proof.
  refine (proj2 (question_has_precedence_over_query "  "
                   (Some "What is your address?") _) _).
  - discriminate.
  - vm_compute. reflexivity.
Defined.

(* ===================================================================== *)
(** ** Properties of [vapi_make_call] *)
(* ===================================================================== *)




(* ===================================================================== *)
(** ** Questions inside longer questions *)
(* ===================================================================== *)

(** X6. Text around a question can only move the answer towards the
    front of the cascade: when a group matches a question, every question
    whose lower-cased text contains that question's is answered by that
    group or by one tested before it, never by a later one and never by
    the fallback. *)
Theorem longer_question_answers_earlier
    (question longer : string) (i : nat) (kws : list string) (answer : string) :
  RULES !! i = Some (kws, answer) ->
  any_in kws (lower question) = true ->
  str_in (lower question) (lower longer) = true ->
  In (answer_question longer) (map snd (take (S i) RULES)) /\
  answer_question longer <> ANSWER_FALLBACK.
Proof.
  intros Hi Hany Hsub.
  assert (Hlonger : any_in kws (lower longer) = true).
  { apply any_in_spec in Hany as (word & Hin & Hword).
    apply (any_in_intro word); [exact Hin|].
    exact (str_in_trans _ _ _ Hword Hsub). }
  pose proof (dispatch_upto (lower longer) (take i RULES) kws answer
                (drop (S i) RULES) Hlonger) as Hin.
  rewrite (take_drop_middle RULES i (kws, answer) Hi) in Hin.
  rewrite <- (take_S_r RULES i (kws, answer) Hi) in Hin.
  rewrite answer_question_dispatch. split; [exact Hin|].
  intros Heq. rewrite Heq in Hin.
  pose proof answers_distinct as Hnd. apply NoDup_cons in Hnd as [Hf _].
  apply Hf. apply list_elem_of_In.
  apply in_map_iff in Hin as (rule & Hsnd & Hrule).
  apply in_map_iff. exists rule. split; [exact Hsnd|].
  apply list_elem_of_In. apply list_elem_of_In in Hrule.
  apply elem_of_take in Hrule as (j & Hj & _).
  eapply list_elem_of_lookup_2. exact Hj.
Qed.

Lemma longer_question_answers_earlier_witness :
  In (answer_question "What are the FEES? Please call me back.")
     (map snd (take 18 RULES)) /\
  answer_question "What are the FEES? Please call me back." <> ANSWER_FALLBACK.
Proof.
  refine (longer_question_answers_earlier "the fees"
            "What are the FEES? Please call me back." 17
            ["fees"; "school fees"; "tuition"; "scholarship"; "bus";
             "transport"; "boarding"; "hostel"] ANSWER_FEES eq_refl _ _).
  - vm_compute. reflexivity.
  - vm_compute. reflexivity.
Defined.
